(** * durable_swarm.py: a durable wrapper around the Swarm conversation loop

    A shallow embedding of [examples/reliable_refund/durable_swarm.py].
    The file defines one class, [DurableSwarm(Swarm, DBOSConfiguredInstance)],
    whose four method bodies only call into two libraries that are not part
    of the repository: the agent library ([Swarm], [pretty_print_messages])
    and the durability runtime ([DBOS], [DBOSConfiguredInstance]).

    The embedding has four layers:
    - method bodies are programs over the library calls they make
      (an inductive free monad, [prog]);
    - [exec] runs a program against an arbitrary behaviour of the two
      libraries ([library]), threading the instance's attributes and the
      world outside it, stopping at the first exception and recording every
      call made;
    - the module body (imports, [DBOS()], the decorated class, [DBOS.launch()])
      is a list of statements, loaded in Python's evaluation order by [load];
    - [Swarm]'s own methods are arbitrary bodies whose calls on [self] go to
      the class of the instance ([dispatch]), so that a [Swarm] and a
      [DurableSwarm] can be compared under the same library code. *)

From stdpp Require Import base option strings list gmap.

Local Open Scope string_scope.
Local Open Scope list_scope.

(** ** Python data *)

(** Python objects as far as this file passes them around: it never inspects
    an argument, it only forwards it. *)
#[warnings="-register-all"]
Inductive value : Type :=
| VNone
| VBool (b : bool)
| VInt (n : Z)
| VStr (s : string)
| VList (xs : list value)
| VDict (kvs : list (string * value)).

(** What a method declared [(self, *args, **kwargs)] receives: the tuple
    [args] and the dict [kwargs] (a dict keeps insertion order, hence an
    association list). *)
Record arguments : Type := Arguments_ {
  args : list value;
  kwargs : list (string * value)
}.

(** Modelled from the spec: the type returned by [Swarm.run], which is
    declared in the agent library and not in this repository; section 6 has
    it as "a response containing a sequence of messages".  Whatever else the
    response carries is kept in [other_fields]. *)
Record Response : Type := Response_ {
  messages : list value;
  other_fields : list (string * value)
}.

Record exception : Type := Exception_ {
  exc_type : string;
  exc_args : list value
}.

Inductive outcome (A : Type) : Type :=
| Returns (a : A)
| Raises (e : exception).
Arguments Returns {A} a.
Arguments Raises {A} e.

(** The instance's [__dict__]. *)
Abbreviation attrs := (gmap string value).

(** ** Programs over library calls *)

(** The calls the four method bodies make.  [super().m(...)] inside
    [DurableSwarm] goes to the next class of the method resolution order that
    defines [m]; [super_target] below computes it. *)
Inductive call : Type -> Type :=
| Swarm__init__ (client : value) : call unit
| DBOSConfiguredInstance__init__ (config_name : string) : call unit
| super_get_chat_completion (a : arguments) : call value
| super_handle_tool_calls (a : arguments) : call value
| super_run (a : arguments) : call Response
| pretty_print_messages (ms : list value) : call unit.

Inductive prog (A : Type) : Type :=
| Ret (a : A)
| Do {X : Type} (c : call X) (k : X -> prog A).
Arguments Ret {A} a.
Arguments Do {A X} c k.

Fixpoint prog_bind {A B : Type} (f : A -> prog B) (p : prog A) : prog B :=
  match p with
  | Ret a => f a
  | Do c k => Do c (fun x => prog_bind f (k x))
  end.

#[global] Instance prog_ret : MRet prog := @Ret.
#[global] Instance prog_mbind : MBind prog := @prog_bind.

Definition perform {X : Type} (c : call X) : prog X := Do c Ret.

(** ** The class body *)

Module DurableSwarm.

(** [def __init__(self, client=None)]: [client] is [None] when the caller
    does not supply it. *)
Definition client_default : value := VNone.

Definition __init__ (client : option value) : prog unit :=
  let client := default client_default client in
  perform (Swarm__init__ client);;
  perform (DBOSConfiguredInstance__init__ "openai_client").

Definition get_chat_completion (a : arguments) : prog value :=
  perform (super_get_chat_completion a).

Definition handle_tool_calls (a : arguments) : prog value :=
  perform (super_handle_tool_calls a).

Definition run (a : arguments) : prog Response :=
  response ← perform (super_run a);
  perform (pretty_print_messages (messages response));;
  mret response.

End DurableSwarm.

(** ** Running a program against the libraries *)

(** A behaviour of the two libraries.  A method of a base class receives
    [self] and may read and write its attributes as well as the world outside
    the instance ([Env]: the network, the runtime's tables, the terminal);
    [pretty_print_messages] receives the message list only. *)
Record library (Env : Type) : Type := Library_ {
  lib_Swarm_init : value -> attrs -> Env -> outcome unit * attrs * Env;
  lib_Configured_init : string -> attrs -> Env -> outcome unit * attrs * Env;
  lib_Swarm_get_chat_completion :
    arguments -> attrs -> Env -> outcome value * attrs * Env;
  lib_Swarm_handle_tool_calls :
    arguments -> attrs -> Env -> outcome value * attrs * Env;
  lib_Swarm_run : arguments -> attrs -> Env -> outcome Response * attrs * Env;
  lib_pretty_print_messages : list value -> Env -> outcome unit * Env
}.
Arguments lib_Swarm_init {Env} _.
Arguments lib_Configured_init {Env} _.
Arguments lib_Swarm_get_chat_completion {Env} _.
Arguments lib_Swarm_handle_tool_calls {Env} _.
Arguments lib_Swarm_run {Env} _.
Arguments lib_pretty_print_messages {Env} _.

Inductive event : Type :=
| Called {X : Type} (c : call X).

Record state (Env : Type) : Type := State_ {
  self : attrs;
  env : Env
}.
Arguments State_ {Env} self env.
Arguments self {Env} _.
Arguments env {Env} _.

Record run_result (Env A : Type) : Type := Result_ {
  trace : list event;
  result : outcome A;
  final : state Env
}.
Arguments Result_ {Env A} trace result final.
Arguments trace {Env A} _.
Arguments result {Env A} _.
Arguments final {Env A} _.

Section Exec.
Context {Env : Type} (lib : library Env).

Definition handle {X : Type} (c : call X) (st : state Env)
  : outcome X * state Env :=
  match c in call T return outcome T * state Env with
  | Swarm__init__ client =>
      let '(o, s, e) := lib_Swarm_init lib client (self st) (env st) in
      (o, State_ s e)
  | DBOSConfiguredInstance__init__ n =>
      let '(o, s, e) := lib_Configured_init lib n (self st) (env st) in
      (o, State_ s e)
  | super_get_chat_completion a =>
      let '(o, s, e) :=
        lib_Swarm_get_chat_completion lib a (self st) (env st) in
      (o, State_ s e)
  | super_handle_tool_calls a =>
      let '(o, s, e) :=
        lib_Swarm_handle_tool_calls lib a (self st) (env st) in
      (o, State_ s e)
  | super_run a =>
      let '(o, s, e) := lib_Swarm_run lib a (self st) (env st) in
      (o, State_ s e)
  | pretty_print_messages ms =>
      let '(o, e) := lib_pretty_print_messages lib ms (env st) in
      (o, State_ (self st) e)
  end.

(** No method body catches anything: the first exception ends the run. *)
Fixpoint exec {A : Type} (p : prog A) (st : state Env) : run_result Env A :=
  match p with
  | Ret a => Result_ [] (Returns a) st
  | Do c k =>
      match handle c st with
      | (Returns x, st') =>
          let r := exec (k x) st' in
          Result_ (Called c :: trace r) (result r) (final r)
      | (Raises e, st') => Result_ [Called c] (Raises e) st'
      end
  end.

End Exec.

(** ** The module body *)

(** The three decorators the file takes from the durability runtime:
    [@DBOS.dbos_class()] registers a class, [@DBOS.step()] marks a function
    as a checkpointed step, [@DBOS.workflow()] as a recoverable workflow.
    What the runtime does with a marked function is outside this file. *)
Inductive decorator : Type :=
| dbos_class
| step
| workflow.

#[global] Instance decorator_eq_dec : EqDecision decorator.
Proof. solve_decision. Defined.

(** A [step] or [workflow] mark makes a function a unit of work of the
    runtime; [dbos_class] marks classes, not functions. *)
Definition checkpointing (d : decorator) : bool :=
  match d with
  | step | workflow => true
  | dbos_class => false
  end.

Inductive body : Type :=
| InitBody (f : option value -> prog unit)
| ValueBody (f : arguments -> prog value)
| ResponseBody (f : arguments -> prog Response).

Record def : Type := Def_ {
  def_decorators : list decorator;
  def_name : string;
  def_body : body
}.

Inductive stmt : Type :=
| ImportFrom (source : string) (names : list string)
| DBOS_init
| ClassDef (decorators : list decorator) (name : string)
    (bases : list string) (defs : list def)
| DBOS_launch.

Definition DurableSwarm_defs : list def :=
  [ Def_ [] "__init__" (InitBody DurableSwarm.__init__);
    Def_ [step] "get_chat_completion"
      (ValueBody DurableSwarm.get_chat_completion);
    Def_ [] "handle_tool_calls" (ValueBody DurableSwarm.handle_tool_calls);
    Def_ [workflow] "run" (ResponseBody DurableSwarm.run) ].

Definition module_body : list stmt :=
  [ ImportFrom "swarm" ["Swarm"];
    ImportFrom "dbos" ["DBOS"; "DBOSConfiguredInstance"];
    ImportFrom "swarm.repl.repl" ["pretty_print_messages"];
    DBOS_init;
    ClassDef [dbos_class] "DurableSwarm" ["Swarm"; "DBOSConfiguredInstance"]
      DurableSwarm_defs;
    DBOS_launch ].

Definition find_def (name : string) (ds : list def) : option def :=
  List.find (fun d => bool_decide (def_name d = name)) ds.

Definition decorators_of (name : string) : list decorator :=
  from_option def_decorators [] (find_def name DurableSwarm_defs).

(** *** Loading the module *)

(** What happens, in order, when Python executes the module body. *)
Inductive load_event : Type :=
| Imported (source : string)
| RuntimeInitialised
| DecoratorMade (d : decorator)
| FunctionMade (name : string)
| Decorated (d : decorator) (target : string)
| ClassMade (name : string) (bases : list string)
| RuntimeLaunched.

#[global] Instance load_event_eq_dec : EqDecision load_event.
Proof. solve_decision. Defined.

(** A decorated [def]: the decorator expressions are evaluated top to bottom,
    the function object is made, the decorators are applied bottom to top. *)
Definition load_def (d : def) : list load_event :=
  (DecoratorMade <$> def_decorators d)
  ++ [FunctionMade (def_name d)]
  ++ ((fun x => Decorated x (def_name d)) <$> reverse (def_decorators d)).

(** A decorated [class]: decorator expressions first, then the class body,
    then the class object, then the decorators bottom to top. *)
Definition load_stmt (s : stmt) : list load_event :=
  match s with
  | ImportFrom source _ => [Imported source]
  | DBOS_init => [RuntimeInitialised]
  | ClassDef ds name bases defs =>
      (DecoratorMade <$> ds)
      ++ (defs ≫= load_def)
      ++ [ClassMade name bases]
      ++ ((fun x => Decorated x name) <$> reverse ds)
  | DBOS_launch => [RuntimeLaunched]
  end.

Definition load (m : list stmt) : list load_event := m ≫= load_stmt.

Definition is_import (e : load_event) : bool :=
  match e with Imported _ => true | _ => false end.

Definition defines_class (e : load_event) : bool :=
  match e with
  | DecoratorMade _ | FunctionMade _ | Decorated _ _ | ClassMade _ _ => true
  | _ => false
  end.

(** *** Attribute lookup *)

Inductive class : Type :=
| cls_DurableSwarm
| cls_Swarm
| cls_DBOSConfiguredInstance.

#[global] Instance class_eq_dec : EqDecision class.
Proof. solve_decision. Defined.

(** Modelled from the spec: the attributes the agent library's [Swarm] class
    defines, which is not in this repository.  Section 6 lists what the file
    expects of it: "construction from an optional client handle, a method
    that obtains a model completion given arguments, a method that dispatches
    tool calls, and a method that runs a full conversation loop". *)
Definition Swarm_interface : list string :=
  ["__init__"; "get_chat_completion"; "handle_tool_calls"; "run"].

Section Lookup.
(** Whatever else the two library classes define. *)
Context (Swarm_more Configured_more : list string).

(** The class's own [__dict__].  For [DurableSwarm] it holds what the class
    statement binds: [__module__] and [__doc__], which Python (up to 3.12)
    binds for every class statement, around the functions of the body. *)
Definition class_dict (c : class) : list string :=
  match c with
  | cls_DurableSwarm =>
      "__module__" :: (def_name <$> DurableSwarm_defs) ++ ["__doc__"]
  | cls_Swarm => Swarm_interface ++ Swarm_more
  | cls_DBOSConfiguredInstance => "__init__" :: Configured_more
  end.

(** The method resolution order: [class DurableSwarm(Swarm,
    DBOSConfiguredInstance)] puts the class first and its first base second.
    [object], the last class of every order, is left out. *)
Definition mro (c : class) : list class :=
  match c with
  | cls_DurableSwarm =>
      [cls_DurableSwarm; cls_Swarm; cls_DBOSConfiguredInstance]
  | cls_Swarm => [cls_Swarm]
  | cls_DBOSConfiguredInstance => [cls_DBOSConfiguredInstance]
  end.

Fixpoint resolve (order : list class) (name : string) : option class :=
  match order with
  | [] => None
  | c :: rest =>
      if bool_decide (name ∈ class_dict c) then Some c else resolve rest name
  end.

(** [instance.name] on an instance of [c]. *)
Definition lookup_attr (c : class) (name : string) : option class :=
  resolve (mro c) name.

(** [super().name] inside a method of [DurableSwarm], on a [DurableSwarm]:
    the search starts after [DurableSwarm]. *)
Definition super_target (name : string) : option class :=
  resolve (tail (mro cls_DurableSwarm)) name.

(** The functions the body of [DurableSwarm] defines that [Swarm] defines
    too. *)
Definition overridden : list string :=
  filter (fun n => n ∈ class_dict cls_Swarm) (def_name <$> DurableSwarm_defs).

End Lookup.

(** ** Reading a trace *)

(** The message lists handed to [pretty_print_messages], in order. *)
Definition printed (tr : list event) : list (list value) :=
  omap (fun ev =>
          match ev with
          | Called c =>
              match c with
              | pretty_print_messages ms => Some ms
              | _ => None
              end
          end) tr.

(** The names handed to [DBOSConfiguredInstance.__init__], in order. *)
Definition registrations (tr : list event) : list string :=
  omap (fun ev =>
          match ev with
          | Called c =>
              match c with
              | DBOSConfiguredInstance__init__ n => Some n
              | _ => None
              end
          end) tr.

(** The three names the class body gives [(self, *args, **kwargs)]. *)
Definition forwarding_methods : list string :=
  ["get_chat_completion"; "handle_tool_calls"; "run"].

Definition marked_for_checkpointing (name : string) : bool :=
  existsb checkpointing (decorators_of name).

(** ** One behaviour of the libraries, to run the class on *)

Record world : Type := World_ {
  terminal : list (list value);
  configured_instances : list string
}.

Definition TypeError : exception := Exception_ "TypeError" [].

(** [Swarm.__init__] keeps the client, [DBOSConfiguredInstance.__init__] keeps
    the name and enters it in the runtime's table, [run] wants at least one
    positional argument and answers with the messages it was given, the
    printer appends to the terminal. *)
Definition sample_library : library world :=
  {| lib_Swarm_init client s w := (Returns (), <["client" := client]> s, w);
     lib_Configured_init n s w :=
       (Returns (), <["config_name" := VStr n]> s,
        World_ (terminal w) (n :: configured_instances w));
     lib_Swarm_get_chat_completion a s w :=
       (Returns (VDict [("role", VStr "assistant")]), s, w);
     lib_Swarm_handle_tool_calls a s w := (Returns (VList (args a)), s, w);
     lib_Swarm_run a s w :=
       match args a with
       | [] => (Raises TypeError, s, w)
       | _ :: ms =>
           (Returns (Response_ ms (kwargs a)), <["turns" := VInt 1]> s, w)
       end;
     lib_pretty_print_messages ms w :=
       (Returns (), World_ (terminal w ++ [ms]) (configured_instances w)) |}.

Definition fresh : state world := State_ ∅ (World_ [] []).

Definition hello : arguments :=
  Arguments_ [VStr "agent"; VStr "hi"] [("debug", VBool false)].

(** The parent methods reached through [super()], by name, with the
    arguments each was given, in order. *)
Definition parent_calls (tr : list event) : list (string * arguments) :=
  omap (fun ev =>
          match ev with
          | Called c =>
              match c with
              | super_get_chat_completion a => Some ("get_chat_completion", a)
              | super_handle_tool_calls a => Some ("handle_tool_calls", a)
              | super_run a => Some ("run", a)
              | _ => None
              end
          end) tr.

(** The decorator applications of a load, in order: which decorator was
    applied to which name. *)
Definition decorations (l : list load_event) : list (decorator * string) :=
  omap (fun e =>
          match e with
          | Decorated d target => Some (d, target)
          | _ => None
          end) l.

(** What the source writes above a [def] or a [class], in the order Python
    applies it: bottom to top. *)
Definition written_on (ds : list decorator) (name : string)
  : list (decorator * string) :=
  (fun d => (d, name)) <$> reverse ds.

(** ** A less obliging behaviour of the libraries *)

Definition OpenAIError : exception :=
  Exception_ "OpenAIError" [VStr "no api key"].
Definition DuplicateInstance : exception :=
  Exception_ "Exception" [VStr "duplicate instance"].
Definition BrokenPipeError : exception := Exception_ "BrokenPipeError" [].

(** [Swarm.__init__] wants a client, [DBOSConfiguredInstance.__init__] refuses
    a name that is taken, the terminal is closed; [run] counts its turns on
    the instance and in the world before answering. *)
Definition harsh_library : library world :=
  {| lib_Swarm_init client s w :=
       match client with
       | VNone => (Raises OpenAIError, s, w)
       | _ => (Returns (), <["client" := client]> s, w)
       end;
     lib_Configured_init n s w :=
       if bool_decide (n ∈ configured_instances w)
       then (Raises DuplicateInstance, <["config_name" := VStr n]> s, w)
       else (Returns (), <["config_name" := VStr n]> s,
             World_ (terminal w) (n :: configured_instances w));
     lib_Swarm_get_chat_completion a s w := (Returns VNone, s, w);
     lib_Swarm_handle_tool_calls a s w := (Returns (VList (args a)), s, w);
     lib_Swarm_run a s w :=
       (Returns (Response_ (args a) (kwargs a)), <["turns" := VInt 1]> s,
        World_ ([VStr "request"] :: terminal w) (configured_instances w));
     lib_pretty_print_messages ms w := (Raises BrokenPipeError, w) |}.

(** A world in which an instance is registered already. *)
Definition taken : state world := State_ ∅ (World_ [] ["openai_client"]).

(** ** Swarm's own methods, and their calls on [self] *)

(** What the body of a method of [Swarm] can do, whatever its code is: work
    of its own on the instance and on the world, and calls of the three
    methods on [self].  Python finds a method called on [self] on the class
    of the instance, so on a [DurableSwarm] such a call goes through the
    override. *)
Inductive self_call (Env : Type) : Type -> Type :=
| self_get_chat_completion (a : arguments) : self_call Env value
| self_handle_tool_calls (a : arguments) : self_call Env value
| self_run (a : arguments) : self_call Env Response
| own_work {X : Type} (f : attrs -> Env -> outcome X * attrs * Env)
  : self_call Env X.
Arguments self_get_chat_completion {Env} a.
Arguments self_handle_tool_calls {Env} a.
Arguments self_run {Env} a.
Arguments own_work {Env X} f.

(** A body: it ends with an outcome, or takes a step, sees how the step
    ended (returned or raised) and goes on as it likes. *)
Inductive method (Env A : Type) : Type :=
| Done (o : outcome A)
| Then {X : Type} (c : self_call Env X) (k : outcome X -> method Env A).
Arguments Done {Env A} o.
Arguments Then {Env A X} c k.

(** Modelled from the spec: the code of [Swarm]'s three methods, which is not
    in this repository.  Section 6 names them: "a method that obtains a model
    completion given arguments, a method that dispatches tool calls, and a
    method that runs a full conversation loop".  Their bodies are arbitrary. *)
Record Swarm_code (Env : Type) : Type := Swarm_code_ {
  code_get_chat_completion : arguments -> method Env value;
  code_handle_tool_calls : arguments -> method Env value;
  code_run : arguments -> method Env Response
}.
Arguments code_get_chat_completion {Env} _.
Arguments code_handle_tool_calls {Env} _.
Arguments code_run {Env} _.

(** The class of the instance a method is called on. *)
Inductive receiver : Type :=
| a_Swarm
| a_DurableSwarm.

Definition is_self_run {Env X : Type} (c : self_call Env X) : bool :=
  match c with
  | self_run _ => true
  | _ => false
  end.

(** A body that never calls [run] on [self], however its steps end. *)
Inductive no_self_run {Env A : Type} : method Env A -> Prop :=
| no_self_run_Done (o : outcome A) : no_self_run (Done o)
| no_self_run_Then {X : Type} (c : self_call Env X)
    (k : outcome X -> method Env A) :
    is_self_run c = false ->
    (forall o, no_self_run (k o)) ->
    no_self_run (Then c k).

Section OpenSwarm.
Context {Env : Type}.

(** How a step is answered: [None] when the depth allowed is used up. *)
Definition answer : Type :=
  forall X : Type, self_call Env X -> state Env -> option (outcome X * state Env).

Fixpoint run_with (ans : answer) {A : Type} (m : method Env A) (st : state Env)
  : option (outcome A * state Env) :=
  match m with
  | Done o => Some (o, st)
  | Then c k =>
      match ans _ c st with
      | Some (o, st') => run_with ans (k o) st'
      | None => None
      end
  end.

(** [exec] again, for library calls that may use up the depth allowed; the
    calls are not recorded. *)
Fixpoint exec_opt
    (h : forall X : Type, call X -> state Env -> option (outcome X * state Env))
    {A : Type} (p : prog A) (st : state Env)
  : option (outcome A * state Env) :=
  match p with
  | Ret a => Some (Returns a, st)
  | Do c k =>
      match h _ c st with
      | Some (Returns x, st') => exec_opt h (k x) st'
      | Some (Raises e, st') => Some (Raises e, st')
      | None => None
      end
  end.

Context (code : Swarm_code Env) (lib : library Env).

(** The library calls of a [DurableSwarm] body, when [Swarm]'s methods are
    given by [code]: [super().m] runs the body of [Swarm.m] on the same
    instance; the constructors and the printer are those of [lib]. *)
Definition super_handler (ans : answer) (X : Type) (c : call X) (st : state Env)
  : option (outcome X * state Env) :=
  match c in call T return option (outcome T * state Env) with
  | super_get_chat_completion a =>
      run_with ans (code_get_chat_completion code a) st
  | super_handle_tool_calls a =>
      run_with ans (code_handle_tool_calls code a) st
  | super_run a => run_with ans (code_run code a) st
  | Swarm__init__ client => Some (handle lib (Swarm__init__ client) st)
  | DBOSConfiguredInstance__init__ n =>
      Some (handle lib (DBOSConfiguredInstance__init__ n) st)
  | pretty_print_messages ms =>
      Some (handle lib (pretty_print_messages ms) st)
  end.

(** A step of a body running on an instance of [on], with [n] more nested
    method calls allowed.  On a [Swarm], [self.m] is [Swarm.m]; on a
    [DurableSwarm] it is [DurableSwarm.m], whose [super()] leads to [Swarm.m]
    on the same instance. *)
Fixpoint dispatch (n : nat) (on : receiver) (X : Type) (c : self_call Env X)
    (st : state Env) {struct n} : option (outcome X * state Env) :=
  match c in self_call _ T return option (outcome T * state Env) with
  | own_work f =>
      let '(o, s, e) := f (self st) (env st) in Some (o, State_ s e)
  | self_get_chat_completion a =>
      match n with
      | 0 => None
      | S n' =>
          match on with
          | a_Swarm =>
              run_with (dispatch n' a_Swarm) (code_get_chat_completion code a) st
          | a_DurableSwarm =>
              exec_opt (super_handler (dispatch n' a_DurableSwarm))
                (DurableSwarm.get_chat_completion a) st
          end
      end
  | self_handle_tool_calls a =>
      match n with
      | 0 => None
      | S n' =>
          match on with
          | a_Swarm =>
              run_with (dispatch n' a_Swarm) (code_handle_tool_calls code a) st
          | a_DurableSwarm =>
              exec_opt (super_handler (dispatch n' a_DurableSwarm))
                (DurableSwarm.handle_tool_calls a) st
          end
      end
  | self_run a =>
      match n with
      | 0 => None
      | S n' =>
          match on with
          | a_Swarm => run_with (dispatch n' a_Swarm) (code_run code a) st
          | a_DurableSwarm =>
              exec_opt (super_handler (dispatch n' a_DurableSwarm))
                (DurableSwarm.run a) st
          end
      end
  end.

(** Calling an operation of [Swarm] with body [op] on an instance of [on]. *)
Definition call_operation (n : nat) (on : receiver) {A : Type}
    (op : method Env A) (st : state Env) : option (outcome A * state Env) :=
  run_with (dispatch n on) op st.

End OpenSwarm.

(** *** A [Swarm] to run *)

(** A completion that counts itself on the instance, a tool dispatcher that
    answers with its arguments, and a [run] that asks for one completion and
    answers with the messages it was given. *)
Definition small_Swarm : Swarm_code world :=
  {| code_get_chat_completion a :=
       Then (own_work (fun s w =>
                         (Returns (VStr "completion"),
                          <["completions" := VInt 1]> s, w)))
            Done;
     code_handle_tool_calls a :=
       Then (own_work (fun s w => (Returns (VList (args a)), s, w))) Done;
     code_run a :=
       Then (self_get_chat_completion a)
            (fun o =>
               match o with
               | Returns _ => Done (Returns (Response_ (args a) (kwargs a)))
               | Raises e => Done (Raises e)
               end) |}.

(** An operation in the manner of a streaming run: one completion, then the
    tools, on [self]; a failed completion is answered with [None]. *)
Definition completion_then_tools (a : arguments) : method world value :=
  Then (self_get_chat_completion a)
       (fun o =>
          match o with
          | Returns _ => Then (self_handle_tool_calls a) Done
          | Raises _ => Done (Returns VNone)
          end).

(** An operation that runs the conversation on [self]. *)
Definition run_again (a : arguments) : method world Response :=
  Then (self_run a) Done.

(** * Properties *)

(** A closed statement with a decision procedure is settled by running it. *)
Ltac closed_by_decision :=
  apply (bool_decide_unpack _); vm_compute; exact I.

(** Builds the proof that a given body never calls [run] on [self]. *)
Ltac never_runs :=
  repeat first
    [ apply no_self_run_Done
    | apply no_self_run_Then; [reflexivity | intros [? | ?]] ].

(** ** How [exec] runs the building blocks *)

Section ExecLemmas.
Context {Env : Type} (lib : library Env).

Lemma exec_ret {A : Type} (a : A) (st : state Env) :
  exec lib (mret a) st = Result_ [] (Returns a) st.
Proof. reflexivity. Qed.

Lemma exec_perform {X : Type} (c : call X) (st : state Env) :
  exec lib (perform c) st =
  Result_ [Called c] (handle lib c st).1 (handle lib c st).2.
Proof.
  unfold perform. simpl.
  destruct (handle lib c st) as [[x | e] st']; reflexivity.
Qed.

(** Sequencing: the second program starts where the first one stopped, and
    does not start at all when the first one raised. *)
Lemma exec_bind {A B : Type} (p : prog A) (f : A -> prog B) (st : state Env) :
  exec lib (p ≫= f) st =
  match result (exec lib p st) with
  | Returns a =>
      let r := exec lib (f a) (final (exec lib p st)) in
      Result_ (trace (exec lib p st) ++ trace r) (result r) (final r)
  | Raises e =>
      Result_ (trace (exec lib p st)) (Raises e) (final (exec lib p st))
  end.
Proof.
  revert st. induction p as [a | X c k IH]; intros st.
  - simpl. destruct (exec lib (f a) st); reflexivity.
  - change (Do c k ≫= f) with (Do c (fun x => k x ≫= f)).
    simpl. destruct (handle lib c st) as [[x | e] st']; simpl.
    + rewrite IH. destruct (result (exec lib (k x) st')); reflexivity.
    + reflexivity.
Qed.

Lemma handle_super_run (a : arguments) (st : state Env) :
  handle lib (super_run a) st =
  ((lib_Swarm_run lib a (self st) (env st)).1.1,
   State_ (lib_Swarm_run lib a (self st) (env st)).1.2
          (lib_Swarm_run lib a (self st) (env st)).2).
Proof.
  simpl. destruct (lib_Swarm_run lib a (self st) (env st)) as [[o s] e].
  reflexivity.
Qed.

(** [run], whatever the libraries do: the parent is called first; the printer
    is called only with the messages of a response the parent returned. *)
Lemma exec_run (a : arguments) (st : state Env) :
  exec lib (DurableSwarm.run a) st =
  let parent := lib_Swarm_run lib a (self st) (env st) in
  match parent.1.1 with
  | Returns r =>
      let shown := lib_pretty_print_messages lib (messages r) parent.2 in
      Result_ [Called (super_run a); Called (pretty_print_messages (messages r))]
        (match shown.1 with Returns _ => Returns r | Raises e => Raises e end)
        (State_ parent.1.2 shown.2)
  | Raises e => Result_ [Called (super_run a)] (Raises e)
                  (State_ parent.1.2 parent.2)
  end.
Proof.
  unfold DurableSwarm.run.
  rewrite exec_bind, exec_perform, handle_super_run. simpl.
  destruct (lib_Swarm_run lib a (self st) (env st)) as [[[r | e] s1] e1]; simpl.
  - destruct (lib_pretty_print_messages lib (messages r) e1) as [[[] | e] e2];
      reflexivity.
  - reflexivity.
Qed.

End ExecLemmas.

Section InitLemmas.
Context {Env : Type} (lib : library Env).

(** [__init__], whatever the libraries do: [Swarm.__init__] first, with the
    client or [None]; then [DBOSConfiguredInstance.__init__], unless the
    first raised. *)
Lemma exec_init (client : option value) (st : state Env) :
  exec lib (DurableSwarm.__init__ client) st =
  let c := default VNone client in
  let parent := lib_Swarm_init lib c (self st) (env st) in
  match parent.1.1 with
  | Returns _ =>
      let conf := lib_Configured_init lib "openai_client" parent.1.2 parent.2 in
      Result_ [Called (Swarm__init__ c);
               Called (DBOSConfiguredInstance__init__ "openai_client")]
        conf.1.1 (State_ conf.1.2 conf.2)
  | Raises e => Result_ [Called (Swarm__init__ c)] (Raises e)
                  (State_ parent.1.2 parent.2)
  end.
Proof.
  unfold DurableSwarm.__init__, DurableSwarm.client_default. simpl.
  destruct (lib_Swarm_init lib (default VNone client) (self st) (env st))
    as [[[[] | e] s1] e1]; simpl; [| reflexivity].
  destruct (lib_Configured_init lib "openai_client" s1 e1)
    as [[[[] | e] s2] e2]; reflexivity.
Qed.

Lemma exec_get_chat_completion (a : arguments) (st : state Env) :
  exec lib (DurableSwarm.get_chat_completion a) st =
  let parent := lib_Swarm_get_chat_completion lib a (self st) (env st) in
  Result_ [Called (super_get_chat_completion a)] parent.1.1
    (State_ parent.1.2 parent.2).
Proof.
  unfold DurableSwarm.get_chat_completion. rewrite exec_perform. simpl.
  destruct (lib_Swarm_get_chat_completion lib a (self st) (env st))
    as [[o s] e]; reflexivity.
Qed.

Lemma exec_handle_tool_calls (a : arguments) (st : state Env) :
  exec lib (DurableSwarm.handle_tool_calls a) st =
  let parent := lib_Swarm_handle_tool_calls lib a (self st) (env st) in
  Result_ [Called (super_handle_tool_calls a)] parent.1.1
    (State_ parent.1.2 parent.2).
Proof.
  unfold DurableSwarm.handle_tool_calls. rewrite exec_perform. simpl.
  destruct (lib_Swarm_handle_tool_calls lib a (self st) (env st))
    as [[o s] e]; reflexivity.
Qed.

End InitLemmas.

(** ** Where [super()] and attribute lookup go *)

Section LookupLemmas.
Context (Swarm_more Configured_more : list string).

Lemma Swarm_defines_interface (name : string) :
  name ∈ Swarm_interface ->
  name ∈ class_dict Swarm_more Configured_more cls_Swarm.
Proof. intros H. unfold class_dict. apply elem_of_app. by left. Qed.

(** [super()] inside [DurableSwarm] reaches [Swarm] for each method of the
    interface. *)
Lemma super_target_interface (name : string) :
  name ∈ Swarm_interface ->
  super_target Swarm_more Configured_more name = Some cls_Swarm.
Proof.
  intros H. unfold super_target. cbn [mro tail resolve].
  rewrite bool_decide_eq_true_2; [reflexivity |].
  by apply Swarm_defines_interface.
Qed.

Lemma filter_keeps_all {A : Type} (P : A -> Prop) `{!forall x, Decision (P x)}
    (l : list A) :
  Forall P l -> filter P l = l.
Proof.
  induction 1 as [| x l Hx Hl IH]; [reflexivity |].
  rewrite filter_cons_True by exact Hx. by rewrite IH.
Qed.

Lemma overridden_four :
  overridden Swarm_more Configured_more =
  ["__init__"; "get_chat_completion"; "handle_tool_calls"; "run"].
Proof.
  unfold overridden.
  change (def_name <$> DurableSwarm_defs) with Swarm_interface.
  apply filter_keeps_all, Forall_forall. intros name H.
  by apply Swarm_defines_interface.
Qed.

End LookupLemmas.

(** ** Loading, statement by statement *)

Lemma load_app (m1 m2 : list stmt) :
  load (m1 ++ m2) = load m1 ++ load m2.
Proof. unfold load. apply bind_app. Qed.

Lemma load_def_defines_class (d : def) :
  Forall (fun e => defines_class e = true) (load_def d).
Proof.
  unfold load_def. rewrite !Forall_app. split; [| split].
  - apply Forall_fmap, Forall_true. reflexivity.
  - by repeat constructor.
  - apply Forall_fmap, Forall_true. reflexivity.
Qed.

(** Everything a class statement does is part of defining the class. *)
Lemma load_class_defines_class
    (ds : list decorator) (name : string) (bases : list string)
    (defs : list def) :
  Forall (fun e => defines_class e = true)
    (load_stmt (ClassDef ds name bases defs)).
Proof.
  cbn [load_stmt]. rewrite !Forall_app. split; [| split; [| split]].
  - apply Forall_fmap, Forall_true. reflexivity.
  - induction defs as [| d defs IH]; [constructor |].
    change ((d :: defs) ≫= load_def) with (load_def d ++ (defs ≫= load_def)).
    apply Forall_app. split; [apply load_def_defines_class | exact IH].
  - by repeat constructor.
  - apply Forall_fmap, Forall_true. reflexivity.
Qed.

(** A decorator written on a [def] is applied to the function of that name. *)
Lemma load_def_decorated (d : def) (x : decorator) :
  x ∈ def_decorators d -> Decorated x (def_name d) ∈ load_def d.
Proof.
  intros H. unfold load_def. rewrite !elem_of_app. right. right.
  apply (list_elem_of_fmap_2 (fun x => Decorated x (def_name d))).
  by apply elem_of_reverse.
Qed.

Lemma load_class_decorated
    (ds : list decorator) (name : string) (bases : list string)
    (defs : list def) (d : def) (x : decorator) :
  d ∈ defs -> x ∈ def_decorators d ->
  Decorated x (def_name d) ∈ load_stmt (ClassDef ds name bases defs).
Proof.
  intros Hd Hx. simpl. rewrite !elem_of_app. right. left.
  apply list_elem_of_bind. exists d. split; [| exact Hd].
  by apply load_def_decorated.
Qed.

(** ** The claims *)

(** C1. For every argument list [a], [DurableSwarm.run a] first calls the
    parent [Swarm.run] (where [super()] leads) with exactly [a]; when that
    returns a response it hands the response's messages to the printer, and
    once the printer is done it returns that very response.  Nothing else is
    called, and the instance is left as the parent left it. *)
Theorem run_calls_parent_prints_returns
    {Env : Type} (lib : library Env) (Swarm_more Configured_more : list string)
    (a : arguments) (st : state Env)
    (r : Response) (s1 : attrs) (e1 e2 : Env) :
  lib_Swarm_run lib a (self st) (env st) = (Returns r, s1, e1) ->
  lib_pretty_print_messages lib (messages r) e1 = (Returns (), e2) ->
  super_target Swarm_more Configured_more "run" = Some cls_Swarm
  /\ exec lib (DurableSwarm.run a) st =
     Result_
       [Called (super_run a); Called (pretty_print_messages (messages r))]
       (Returns r) (State_ s1 e2).
Proof.
  intros Hparent Hprint. split.
  - apply super_target_interface. unfold Swarm_interface. set_solver.
  - rewrite exec_run. cbv zeta. rewrite Hparent. cbn [fst snd].
    rewrite Hprint. reflexivity.
Qed.

Lemma run_calls_parent_prints_returns_witness :
  super_target [] [] "run" = Some cls_Swarm
  /\ exec sample_library (DurableSwarm.run hello) fresh =
     Result_
       [Called (super_run hello); Called (pretty_print_messages [VStr "hi"])]
       (Returns (Response_ [VStr "hi"] [("debug", VBool false)]))
       (State_ (<["turns" := VInt 1]> ∅) (World_ [[VStr "hi"]] [])).
Proof.
  exact (run_calls_parent_prints_returns sample_library [] [] hello fresh
           (Response_ [VStr "hi"] [("debug", VBool false)])
           (<["turns" := VInt 1]> ∅) (World_ [] []) (World_ [[VStr "hi"]] [])
           eq_refl eq_refl).
Defined.

(** C9. If the parent [Swarm.run] raises, [DurableSwarm.run] raises the same
    exception and prints nothing: the parent call is the only call made, and
    the world is left as the parent left it. *)
Theorem run_propagates_parent_exception
    {Env : Type} (lib : library Env) (a : arguments) (st : state Env)
    (x : exception) (s1 : attrs) (e1 : Env) :
  lib_Swarm_run lib a (self st) (env st) = (Raises x, s1, e1) ->
  result (exec lib (DurableSwarm.run a) st) = Raises x
  /\ printed (trace (exec lib (DurableSwarm.run a) st)) = []
  /\ trace (exec lib (DurableSwarm.run a) st) = [Called (super_run a)]
  /\ final (exec lib (DurableSwarm.run a) st) = State_ s1 e1.
Proof.
  intros Hparent.
  assert (exec lib (DurableSwarm.run a) st =
          Result_ [Called (super_run a)] (Raises x) (State_ s1 e1)) as ->.
  { rewrite exec_run. cbv zeta. by rewrite Hparent. }
  repeat split.
Qed.

Lemma run_propagates_parent_exception_witness :
  result (exec sample_library (DurableSwarm.run (Arguments_ [] [])) fresh)
  = Raises TypeError
  /\ printed (trace (exec sample_library
                       (DurableSwarm.run (Arguments_ [] [])) fresh)) = []
  /\ trace (exec sample_library (DurableSwarm.run (Arguments_ [] [])) fresh)
     = [Called (super_run (Arguments_ [] []))]
  /\ final (exec sample_library (DurableSwarm.run (Arguments_ [] [])) fresh)
     = fresh.
Proof.
  exact (run_propagates_parent_exception sample_library (Arguments_ [] [])
           fresh TypeError ∅ (World_ [] []) eq_refl).
Defined.

(** C3. For every argument list [a], [DurableSwarm.get_chat_completion a]
    makes one call, the parent [Swarm.get_chat_completion] with [a], and its
    outcome and the state it leaves are the parent's; the method carries the
    [step] mark and no other. *)
Theorem get_chat_completion_is_parent_step
    {Env : Type} (lib : library Env) (Swarm_more Configured_more : list string)
    (a : arguments) (st : state Env) :
  exec lib (DurableSwarm.get_chat_completion a) st =
    Result_ [Called (super_get_chat_completion a)]
      (lib_Swarm_get_chat_completion lib a (self st) (env st)).1.1
      (State_ (lib_Swarm_get_chat_completion lib a (self st) (env st)).1.2
              (lib_Swarm_get_chat_completion lib a (self st) (env st)).2)
  /\ super_target Swarm_more Configured_more "get_chat_completion"
     = Some cls_Swarm
  /\ decorators_of "get_chat_completion" = [step].
Proof.
  split; [apply exec_get_chat_completion | split].
  - apply super_target_interface. unfold Swarm_interface. set_solver.
  - reflexivity.
Qed.

(** C4. For every argument list [a], [DurableSwarm.handle_tool_calls a] is a
    pass-through: one call, the parent [Swarm.handle_tool_calls] with [a];
    the outcome is the parent's and so is the state left behind, so nothing
    is added to what the parent does. *)
Theorem handle_tool_calls_is_pass_through
    {Env : Type} (lib : library Env) (Swarm_more Configured_more : list string)
    (a : arguments) (st : state Env) :
  exec lib (DurableSwarm.handle_tool_calls a) st =
    Result_ [Called (super_handle_tool_calls a)]
      (lib_Swarm_handle_tool_calls lib a (self st) (env st)).1.1
      (State_ (lib_Swarm_handle_tool_calls lib a (self st) (env st)).1.2
              (lib_Swarm_handle_tool_calls lib a (self st) (env st)).2)
  /\ super_target Swarm_more Configured_more "handle_tool_calls"
     = Some cls_Swarm.
Proof.
  split.
  - apply exec_handle_tool_calls.
  - apply super_target_interface. unfold Swarm_interface. set_solver.
Qed.

(** C5. The constructor's [client] parameter is optional and defaults to
    [None]; the value in force, given or default, is what the parent
    [Swarm.__init__] is called with, first of all. *)
Theorem init_forwards_optional_client
    {Env : Type} (lib : library Env) (st : state Env) :
  DurableSwarm.client_default = VNone
  /\ head (trace (exec lib (DurableSwarm.__init__ None) st))
     = Some (Called (Swarm__init__ VNone))
  /\ forall c : value,
       head (trace (exec lib (DurableSwarm.__init__ (Some c)) st))
       = Some (Called (Swarm__init__ c)).
Proof.
  split; [reflexivity | split; [| intros c]]; rewrite exec_init; cbv zeta;
    match goal with
    | |- context [lib_Swarm_init lib ?c ?s ?e] =>
        destruct (lib_Swarm_init lib c s e) as [[[[] | x] s1] e1]
    end; reflexivity.
Qed.

(** C7. None of the three forwarding methods writes to the instance: after
    each of them the instance's attributes are exactly those the delegated
    parent call left, whatever the libraries do. *)
Theorem methods_leave_instance_to_parent
    {Env : Type} (lib : library Env) (a : arguments) (st : state Env) :
  self (final (exec lib (DurableSwarm.get_chat_completion a) st))
    = (lib_Swarm_get_chat_completion lib a (self st) (env st)).1.2
  /\ self (final (exec lib (DurableSwarm.handle_tool_calls a) st))
     = (lib_Swarm_handle_tool_calls lib a (self st) (env st)).1.2
  /\ self (final (exec lib (DurableSwarm.run a) st))
     = (lib_Swarm_run lib a (self st) (env st)).1.2.
Proof.
  rewrite exec_get_chat_completion, exec_handle_tool_calls, exec_run.
  cbv zeta. repeat split.
  destruct (lib_Swarm_run lib a (self st) (env st)) as [[[r | x] s1] e1];
    reflexivity.
Qed.

(** C8. For every client, given or not, the name handed to
    [DBOSConfiguredInstance.__init__] is the constant ["openai_client"]: once
    [Swarm.__init__] has returned, the instance is registered exactly once,
    under that name. *)
Theorem instance_name_is_constant
    {Env : Type} (lib : library Env) (client : option value) (st : state Env)
    (s1 : attrs) (e1 : Env) :
  lib_Swarm_init lib (default VNone client) (self st) (env st)
    = (Returns (), s1, e1) ->
  registrations (trace (exec lib (DurableSwarm.__init__ client) st))
    = ["openai_client"].
Proof.
  intros Hparent. rewrite exec_init. cbv zeta. rewrite Hparent. reflexivity.
Qed.

Lemma instance_name_is_constant_witness :
  registrations
    (trace (exec sample_library (DurableSwarm.__init__ (Some (VStr "sk-1")))
              fresh))
  = ["openai_client"]
  /\ registrations
       (trace (exec sample_library (DurableSwarm.__init__ None) fresh))
     = ["openai_client"].
Proof.
  split.
  - exact (instance_name_is_constant sample_library (Some (VStr "sk-1")) fresh
             (<["client" := VStr "sk-1"]> ∅) (World_ [] []) eq_refl).
  - exact (instance_name_is_constant sample_library None fresh
             (<["client" := VNone]> ∅) (World_ [] []) eq_refl).
Defined.

(** Even when [Swarm.__init__] raises, no other name is ever handed over. *)
Lemma registrations_only_openai_client
    {Env : Type} (lib : library Env) (client : option value) (st : state Env)
    (n : string) :
  n ∈ registrations (trace (exec lib (DurableSwarm.__init__ client) st)) ->
  n = "openai_client".
Proof.
  intros Hn. rewrite exec_init in Hn. cbv zeta in Hn.
  destruct (lib_Swarm_init lib (default VNone client) (self st) (env st))
    as [[[[] | x] s1] e1]; cbn in Hn.
  - by apply list_elem_of_singleton in Hn.
  - by apply elem_of_nil in Hn.
Qed.

(** C6. Loading the module, after its imports: the runtime is initialised
    ([DBOS()]) before anything of the class exists; then the class is
    defined, its [step] and [workflow] decorators applied on the way; the
    launch ([DBOS.launch()]) is the last thing that happens. *)
Theorem module_load_order :
  exists imports class_events : list load_event,
    load module_body =
      imports ++ [RuntimeInitialised] ++ class_events ++ [RuntimeLaunched]
    /\ Forall (fun e => is_import e = true) imports
    /\ Forall (fun e => defines_class e = true) class_events
    /\ Decorated step "get_chat_completion" ∈ class_events
    /\ Decorated workflow "run" ∈ class_events
    /\ ClassMade "DurableSwarm" ["Swarm"; "DBOSConfiguredInstance"]
       ∈ class_events.
Proof.
  exists (load (take 3 module_body)).
  exists (load_stmt (ClassDef [dbos_class] "DurableSwarm"
                       ["Swarm"; "DBOSConfiguredInstance"] DurableSwarm_defs)).
  split; [| split; [| split; [| split; [| split]]]].
  - rewrite <- (take_drop 3 module_body) at 1. rewrite load_app.
    apply (f_equal (app (load (take 3 module_body)))).
    change (drop 3 module_body)
      with ([DBOS_init]
            ++ [ClassDef [dbos_class] "DurableSwarm"
                  ["Swarm"; "DBOSConfiguredInstance"] DurableSwarm_defs]
            ++ [DBOS_launch]).
    rewrite !load_app. unfold load. by rewrite !bind_singleton.
  - cbn. by repeat constructor.
  - apply load_class_defines_class.
  - apply (load_class_decorated _ _ _ _
             (Def_ [step] "get_chat_completion"
                (ValueBody DurableSwarm.get_chat_completion)));
      unfold DurableSwarm_defs; cbn [def_decorators]; set_solver.
  - apply (load_class_decorated _ _ _ _
             (Def_ [workflow] "run" (ResponseBody DurableSwarm.run)));
      unfold DurableSwarm_defs; cbn [def_decorators]; set_solver.
  - cbn [load_stmt]. rewrite !elem_of_app. right. right. left.
    apply list_elem_of_singleton. reflexivity.
Qed.

(** C2, as stated, fails: [handle_tool_calls] is one of the three forwarding
    methods and is defined without any decorator. *)
Lemma handle_tool_calls_is_unmarked :
  "handle_tool_calls" ∈ forwarding_methods
  /\ decorators_of "handle_tool_calls" = []
  /\ ~ (forall n : string,
          n ∈ forwarding_methods -> marked_for_checkpointing n = true).
Proof.
  split; [unfold forwarding_methods; set_solver | split; [reflexivity |]].
  intros Hall. specialize (Hall "handle_tool_calls").
  assert (marked_for_checkpointing "handle_tool_calls" = false) as Hno
    by reflexivity.
  rewrite Hall in Hno; [discriminate |].
  unfold forwarding_methods. set_solver.
Qed.

(** C2, amended.  Of the names the class body defines, exactly two carry a
    checkpointing mark: [get_chat_completion] is a [step] and [run] is a
    [workflow]; [handle_tool_calls] carries no decorator at all. *)
Theorem step_and_workflow_marks (n : string) :
  decorators_of "get_chat_completion" = [step]
  /\ decorators_of "run" = [workflow]
  /\ decorators_of "handle_tool_calls" = []
  /\ (marked_for_checkpointing n = true
      <-> n = "get_chat_completion" \/ n = "run").
Proof.
  do 3 (split; [reflexivity |]).
  unfold marked_for_checkpointing, decorators_of, find_def, DurableSwarm_defs.
  cbn [List.find def_name].
  destruct (bool_decide_reflect ("__init__" = n)) as [<- | _].
  { cbn. split; [discriminate | intros [? | ?]; discriminate]. }
  destruct (bool_decide_reflect ("get_chat_completion" = n)) as [<- | Hgcc].
  { cbn. split; auto. }
  destruct (bool_decide_reflect ("handle_tool_calls" = n)) as [<- | _].
  { cbn. split; [discriminate | intros [? | ?]; discriminate]. }
  destruct (bool_decide_reflect ("run" = n)) as [<- | Hrun].
  { cbn. split; auto. }
  cbn. split; [discriminate | intros [-> | ->]; congruence].
Qed.

(** ** Further properties of the class *)

(** X1. [run] does not guard the printer: when the parent has returned a
    response and the printer raises, [run] raises the printer's exception
    and the response is not returned, while everything the parent did to the
    instance stays done. *)
Theorem run_propagates_printer_exception
    {Env : Type} (lib : library Env) (a : arguments) (st : state Env)
    (r : Response) (s1 : attrs) (e1 e2 : Env) (x : exception) :
  lib_Swarm_run lib a (self st) (env st) = (Returns r, s1, e1) ->
  lib_pretty_print_messages lib (messages r) e1 = (Raises x, e2) ->
  exec lib (DurableSwarm.run a) st =
  Result_ [Called (super_run a); Called (pretty_print_messages (messages r))]
    (Raises x) (State_ s1 e2).
Proof.
  intros Hparent Hprint. rewrite exec_run. cbv zeta. rewrite Hparent.
  cbn [fst snd]. by rewrite Hprint.
Qed.

Lemma run_propagates_printer_exception_witness :
  exec harsh_library (DurableSwarm.run hello) fresh =
  Result_
    [Called (super_run hello);
     Called (pretty_print_messages [VStr "agent"; VStr "hi"])]
    (Raises BrokenPipeError)
    (State_ (<["turns" := VInt 1]> ∅) (World_ [[VStr "request"]] [])).
Proof.
  exact (run_propagates_printer_exception harsh_library hello fresh
           (Response_ [VStr "agent"; VStr "hi"] [("debug", VBool false)])
           (<["turns" := VInt 1]> ∅)
           (World_ [[VStr "request"]] []) (World_ [[VStr "request"]] [])
           BrokenPipeError eq_refl eq_refl).
Defined.

(** X2. When [Swarm.__init__] raises, the constructor raises the same
    exception at once: [DBOSConfiguredInstance.__init__] is never called, so
    no name is registered, and the state is the one [Swarm.__init__] left. *)
Theorem init_stops_when_Swarm_init_raises
    {Env : Type} (lib : library Env) (client : option value) (st : state Env)
    (x : exception) (s1 : attrs) (e1 : Env) :
  lib_Swarm_init lib (default VNone client) (self st) (env st)
    = (Raises x, s1, e1) ->
  exec lib (DurableSwarm.__init__ client) st =
    Result_ [Called (Swarm__init__ (default VNone client))] (Raises x)
      (State_ s1 e1)
  /\ registrations (trace (exec lib (DurableSwarm.__init__ client) st)) = [].
Proof.
  intros Hparent.
  assert (exec lib (DurableSwarm.__init__ client) st =
          Result_ [Called (Swarm__init__ (default VNone client))] (Raises x)
            (State_ s1 e1)) as Hexec.
  { rewrite exec_init. cbv zeta. by rewrite Hparent. }
  rewrite Hexec. by split.
Qed.

Lemma init_stops_when_Swarm_init_raises_witness :
  exec harsh_library (DurableSwarm.__init__ None) fresh =
    Result_ [Called (Swarm__init__ VNone)] (Raises OpenAIError) fresh
  /\ registrations
       (trace (exec harsh_library (DurableSwarm.__init__ None) fresh)) = [].
Proof.
  exact (init_stops_when_Swarm_init_raises harsh_library None fresh
           OpenAIError ∅ (World_ [] []) eq_refl).
Defined.

(** X3. When [Swarm.__init__] returns, the constructor goes on to
    [DBOSConfiguredInstance.__init__], which works on the instance and the
    world as [Swarm.__init__] left them; the constructor ends as that second
    call ends, be it a return or an exception, and nothing is undone. *)
Theorem init_runs_both_initialisers_in_order
    {Env : Type} (lib : library Env) (client : option value) (st : state Env)
    (s1 : attrs) (e1 : Env) :
  lib_Swarm_init lib (default VNone client) (self st) (env st)
    = (Returns (), s1, e1) ->
  exec lib (DurableSwarm.__init__ client) st =
  Result_
    [Called (Swarm__init__ (default VNone client));
     Called (DBOSConfiguredInstance__init__ "openai_client")]
    (lib_Configured_init lib "openai_client" s1 e1).1.1
    (State_ (lib_Configured_init lib "openai_client" s1 e1).1.2
            (lib_Configured_init lib "openai_client" s1 e1).2).
Proof.
  intros Hparent. rewrite exec_init. cbv zeta. by rewrite Hparent.
Qed.

Lemma init_runs_both_initialisers_in_order_witness :
  exec harsh_library (DurableSwarm.__init__ (Some (VStr "sk-1"))) taken =
  Result_
    [Called (Swarm__init__ (VStr "sk-1"));
     Called (DBOSConfiguredInstance__init__ "openai_client")]
    (Raises DuplicateInstance)
    (State_ (<["config_name" := VStr "openai_client"]>
               (<["client" := VStr "sk-1"]> ∅))
            (World_ [] ["openai_client"])).
Proof.
  exact (init_runs_both_initialisers_in_order harsh_library
           (Some (VStr "sk-1")) taken (<["client" := VStr "sk-1"]> ∅)
           (World_ [] ["openai_client"]) eq_refl).
Defined.

(** X4. Each forwarding method reaches its parent exactly once, with the
    arguments it was given, whatever the parent and the printer do: no
    parent call is skipped, repeated or retried, and no method reaches a
    parent method other than its own. *)
Theorem parent_called_exactly_once
    {Env : Type} (lib : library Env) (a : arguments) (st : state Env) :
  parent_calls (trace (exec lib (DurableSwarm.get_chat_completion a) st))
    = [("get_chat_completion", a)]
  /\ parent_calls (trace (exec lib (DurableSwarm.handle_tool_calls a) st))
     = [("handle_tool_calls", a)]
  /\ parent_calls (trace (exec lib (DurableSwarm.run a) st)) = [("run", a)].
Proof.
  rewrite exec_get_chat_completion, exec_handle_tool_calls, exec_run.
  cbv zeta. split; [reflexivity | split; [reflexivity |]].
  destruct (lib_Swarm_run lib a (self st) (env st)) as [[[r | x] s1] e1];
    reflexivity.
Qed.

(** X5. Registration belongs to the constructor alone: none of the three
    forwarding methods calls [DBOSConfiguredInstance.__init__], and of the
    three only [run] ever calls the printer. *)
Theorem forwarding_methods_never_register
    {Env : Type} (lib : library Env) (a : arguments) (st : state Env) :
  registrations (trace (exec lib (DurableSwarm.get_chat_completion a) st)) = []
  /\ registrations (trace (exec lib (DurableSwarm.handle_tool_calls a) st)) = []
  /\ registrations (trace (exec lib (DurableSwarm.run a) st)) = []
  /\ printed (trace (exec lib (DurableSwarm.get_chat_completion a) st)) = []
  /\ printed (trace (exec lib (DurableSwarm.handle_tool_calls a) st)) = [].
Proof.
  rewrite exec_get_chat_completion, exec_handle_tool_calls, exec_run.
  cbv zeta. repeat (split; [reflexivity |]).
  split; [| by split].
  destruct (lib_Swarm_run lib a (self st) (env st)) as [[[r | x] s1] e1];
    reflexivity.
Qed.

(** X6. [run] hands something to the printer exactly when the parent
    returned, and then once only: the messages of the response the parent
    returned, whether or not the printer itself goes through. *)
Theorem printer_called_iff_parent_returned
    {Env : Type} (lib : library Env) (a : arguments) (st : state Env) :
  printed (trace (exec lib (DurableSwarm.run a) st)) =
  match (lib_Swarm_run lib a (self st) (env st)).1.1 with
  | Returns r => [messages r]
  | Raises _ => []
  end.
Proof.
  rewrite exec_run. cbv zeta.
  destruct (lib_Swarm_run lib a (self st) (env st)) as [[[r | x] s1] e1];
    reflexivity.
Qed.

(** ** Decorating, as the source writes it *)

Lemma decorations_app (l1 l2 : list load_event) :
  decorations (l1 ++ l2) = decorations l1 ++ decorations l2.
Proof. apply omap_app. Qed.

Lemma decorations_of_made (ds : list decorator) :
  decorations (DecoratorMade <$> ds) = [].
Proof. induction ds as [| d ds IH]; [reflexivity | exact IH]. Qed.

Lemma decorations_of_applied (ds : list decorator) (name : string) :
  decorations ((fun x => Decorated x name) <$> ds)
  = (fun x => (x, name)) <$> ds.
Proof.
  induction ds as [| d ds IH]; [reflexivity |].
  cbn. f_equal. exact IH.
Qed.

Lemma decorations_load_def (d : def) :
  decorations (load_def d) = written_on (def_decorators d) (def_name d).
Proof.
  unfold load_def, written_on.
  rewrite !decorations_app, decorations_of_made, decorations_of_applied.
  reflexivity.
Qed.

(** Loading a class applies the decorators of its functions first, function
    by function from the top, and the decorators of the class last. *)
Lemma decorations_load_class
    (ds : list decorator) (name : string) (bases : list string)
    (defs : list def) :
  decorations (load_stmt (ClassDef ds name bases defs))
  = (defs ≫= (fun d => written_on (def_decorators d) (def_name d)))
    ++ written_on ds name.
Proof.
  cbn [load_stmt].
  rewrite !decorations_app, decorations_of_made, decorations_of_applied.
  cbn [app decorations omap list_omap]. f_equal.
  induction defs as [| d defs IH]; [reflexivity |].
  rewrite !bind_cons, decorations_app, decorations_load_def. by rewrite IH.
Qed.

Lemma decorated_in_decorations
    (l : list load_event) (d : decorator) (name : string) :
  Decorated d name ∈ l -> (d, name) ∈ decorations l.
Proof.
  intros Hin. apply list_elem_of_omap. exists (Decorated d name). by split.
Qed.

(** X8. Loading the module applies three decorators and no more, in this
    order: [step] to [get_chat_completion], [workflow] to [run], and, the
    class body done, [dbos_class] to [DurableSwarm].  Neither
    [handle_tool_calls] nor [__init__] is ever decorated. *)
Theorem load_decorates_as_written :
  decorations (load module_body) =
    [(step, "get_chat_completion"); (workflow, "run");
     (dbos_class, "DurableSwarm")]
  /\ forall d : decorator,
       (Decorated d "handle_tool_calls" ∉ load module_body)
       /\ (Decorated d "__init__" ∉ load module_body).
Proof.
  assert (decorations (load module_body) =
          [(step, "get_chat_completion"); (workflow, "run");
           (dbos_class, "DurableSwarm")]) as Hdec.
  { change module_body
      with ([ImportFrom "swarm" ["Swarm"];
             ImportFrom "dbos" ["DBOS"; "DBOSConfiguredInstance"];
             ImportFrom "swarm.repl.repl" ["pretty_print_messages"];
             DBOS_init]
            ++ [ClassDef [dbos_class] "DurableSwarm"
                  ["Swarm"; "DBOSConfiguredInstance"] DurableSwarm_defs]
            ++ [DBOS_launch]).
    rewrite !load_app, !decorations_app. unfold load at 2.
    rewrite bind_singleton, decorations_load_class. reflexivity. }
  split; [exact Hdec |].
  intros d. split; intros Hin; apply decorated_in_decorations in Hin;
    rewrite Hdec in Hin;
    repeat (apply elem_of_cons in Hin as [Hin | Hin]; [discriminate |]);
    by apply elem_of_nil in Hin.
Qed.

(** ** Swarm's other operations, on a DurableSwarm *)

Section OpenLemmas.
Context {Env : Type} (code : Swarm_code Env) (lib : library Env).

(** With library calls that always answer, [exec_opt] is [exec]. *)
Lemma exec_opt_handle {A : Type} (p : prog A) (st : state Env) :
  exec_opt (fun X c st' => Some (handle lib c st')) p st
  = Some (result (exec lib p st), final (exec lib p st)).
Proof.
  revert st. induction p as [a | X c k IH]; intros st; [reflexivity |].
  cbn. destruct (handle lib c st) as [[x | e] st']; [apply IH | reflexivity].
Qed.

(** A body that is one library call ends as that call ends. *)
Lemma exec_opt_perform
    (h : forall X : Type, call X -> state Env -> option (outcome X * state Env))
    {X : Type} (c : call X) (st : state Env) :
  exec_opt h (perform c) st = h X c st.
Proof.
  unfold perform. cbn.
  destruct (h X c st) as [[[x | e] st'] |]; reflexivity.
Qed.

(** Two ways of answering that agree on every step but [self.run] run a body
    without [self.run] alike. *)
Lemma run_with_agree (ans1 ans2 : @answer Env) {A : Type} (m : method Env A) :
  no_self_run m ->
  (forall X (c : self_call Env X) st,
     is_self_run c = false -> ans1 X c st = ans2 X c st) ->
  forall st, run_with ans1 m st = run_with ans2 m st.
Proof.
  intros Hm Hans.
  induction Hm as [o | X c k Hc Hk IH]; intros st; [reflexivity |].
  cbn. rewrite (Hans X c st Hc).
  destruct (ans2 X c st) as [[o st'] |]; [apply IH | reflexivity].
Qed.

(** The overrides of [get_chat_completion] and [handle_tool_calls] are not
    seen from inside [Swarm]: a call of either on [self] is answered on a
    [DurableSwarm] as on a [Swarm]. *)
Lemma dispatch_agree (n : nat) :
  (forall a, no_self_run (code_get_chat_completion code a)) ->
  (forall a, no_self_run (code_handle_tool_calls code a)) ->
  forall X (c : self_call Env X) st,
    is_self_run c = false ->
    dispatch code lib n a_DurableSwarm X c st
    = dispatch code lib n a_Swarm X c st.
Proof.
  intros Hgcc Htools.
  induction n as [| n IH]; intros X c st Hc;
    destruct c as [a | a | a | X f]; try discriminate Hc; try reflexivity.
  - cbn [dispatch]. unfold DurableSwarm.get_chat_completion.
    rewrite exec_opt_perform. cbn [super_handler].
    apply run_with_agree; [apply Hgcc | exact IH].
  - cbn [dispatch]. unfold DurableSwarm.handle_tool_calls.
    rewrite exec_opt_perform. cbn [super_handler].
    apply run_with_agree; [apply Htools | exact IH].
Qed.

(** What the override of [run] adds to a call of [run] on [self]: the
    printer, once [Swarm.run] has returned. *)
Lemma dispatch_run_durable (n : nat) (a : arguments) (st : state Env) :
  dispatch code lib (S n) a_DurableSwarm Response (self_run a) st =
  match run_with (dispatch code lib n a_DurableSwarm) (code_run code a) st with
  | Some (Returns r, st') =>
      Some (match (lib_pretty_print_messages lib (messages r) (env st')).1 with
            | Returns _ => Returns r
            | Raises e => Raises e
            end,
            State_ (self st')
              (lib_pretty_print_messages lib (messages r) (env st')).2)
  | Some (Raises e, st') => Some (Raises e, st')
  | None => None
  end.
Proof.
  cbn [dispatch]. unfold DurableSwarm.run. cbn.
  destruct (run_with (dispatch code lib n a_DurableSwarm) (code_run code a) st)
    as [[[r | e] st'] |]; try reflexivity.
  destruct (lib_pretty_print_messages lib (messages r) (env st'))
    as [[[] | e] w]; reflexivity.
Qed.

End OpenLemmas.



